(** * The DWG-to-DXF adapter [convert] of packages/dwg/wasm/wrapper.c

    The translation unit exports one function, [convert], which drives
    LibreDWG: it reads a DWG file into a drawing object, opens the output
    path, writes the drawing as ASCII DXF and cleans up.  The library and
    the C runtime are outside the unit; they are taken here as an
    interface ([LibreDWG]) and as a small model of the in-memory
    filesystem ([World]).  Every external call is recorded in a log, so
    that the order of the calls can be stated. *)

From Stdlib Require Import ZArith List Lia.
From stdpp Require Import gmap strings list fin_maps.

Local Open Scope Z_scope.

(** ** Data *)

Abbreviation byte := Byte.byte.
Abbreviation x00 := Byte.x00.

(** C [int]: no arithmetic is done on it, only comparison and return. *)
Abbreviation int := (Z) (only parsing).

(** [Dwg_Version_Type] is an enumeration. *)
Abbreviation Dwg_Version_Type := (Z) (only parsing).

(** The drawing object, as the [sizeof(Dwg_Data)] bytes of the local
    variable [dwg]. *)
Abbreviation Dwg_Data := (list byte) (only parsing).

(** A non-null [FILE *]; [option FILE] is a nullable one. *)
Abbreviation FILE := (nat) (only parsing).

(** Modelled from the spec: the declaration of [Bit_Chain] (src/bits.h) is
    not part of the unit.  The sink holds the target format version, the
    source format version and the file handle; these are the fields the
    wrapper touches. *)
Record Bit_Chain := {
  version : Dwg_Version_Type;
  from_version : Dwg_Version_Type;
  fh : option FILE
}.

(** [Bit_Chain dat = { 0 }] *)
Definition Bit_Chain_zero : Bit_Chain :=
  {| version := 0; from_version := 0; fh := None |}.

Definition set_version (v : Dwg_Version_Type) (dat : Bit_Chain) : Bit_Chain :=
  {| version := v; from_version := from_version dat; fh := fh dat |}.

Definition set_from_version (v : Dwg_Version_Type) (dat : Bit_Chain) : Bit_Chain :=
  {| version := version dat; from_version := v; fh := fh dat |}.

Definition set_fh (f : option FILE) (dat : Bit_Chain) : Bit_Chain :=
  {| version := version dat; from_version := from_version dat; fh := f |}.

(** ** The library interface

    What dwg.h and src/out_dxf.h declare and the wrapper uses.  The
    operations are functions of their arguments: the reader of the path,
    of the bytes stored there (if any) and of the object it is handed; the
    writer of the sink's two version fields and of the drawing.  The
    writer yields its code, the bytes it sends to the sink's handle and
    the drawing as it leaves it; it does not replace the handle. *)
Record LibreDWG := {
  DWG_ERR_CRITICAL : int;
  sizeof_Dwg_Data : nat;
  header_version : Dwg_Data -> Dwg_Version_Type;
  header_from_version : Dwg_Data -> Dwg_Version_Type;
  read_file : string -> option (list byte) -> Dwg_Data -> int * Dwg_Data;
  write_dxf : Dwg_Version_Type -> Dwg_Version_Type -> Dwg_Data ->
              int * list byte * Dwg_Data
}.

(** ** The environment *)

(** One record per external call, with its arguments and its result. *)
Inductive event :=
| Ev_dwg_read_file (filename : string) (dwg : Dwg_Data) (ret : int) (dwg' : Dwg_Data)
| Ev_fopen (path : string) (ret : option FILE)
| Ev_dwg_write_dxf (dat : Bit_Chain) (dwg : Dwg_Data) (ret : int)
| Ev_fclose (stream : FILE)
| Ev_dwg_free (dwg : Dwg_Data).

(** MEMFS and the C runtime, as far as the wrapper can observe them:
    - [files]: the regular files, each under the name [resolve] gives it;
    - [resolve]: the file a path names, once [.], [..], repeated slashes
      and links are resolved; two paths name the same file exactly when
      they resolve alike.  The wrapper changes neither directories nor
      links, so this does not depend on [files];
    - [writable]: whether a path can be opened for writing (its directory
      exists, it is not itself a directory); for the same reason this
      does not depend on [files] either;
    - [streams]: the open streams and the path each one writes to;
    - [frame]: the indeterminate bytes found in a fresh local variable;
    - [log]: the external calls so far, oldest first. *)
Record World := {
  files : gmap string (list byte);
  resolve : string -> string;
  writable : string -> bool;
  streams : gmap nat string;
  frame : nat -> byte;
  log : list event
}.

Definition set_files (f : gmap string (list byte)) (w : World) : World :=
  {| files := f; resolve := resolve w; writable := writable w;
     streams := streams w; frame := frame w; log := log w |}.

Definition set_streams (s : gmap nat string) (w : World) : World :=
  {| files := files w; resolve := resolve w; writable := writable w;
     streams := s; frame := frame w; log := log w |}.

Definition record (e : event) (w : World) : World :=
  {| files := files w; resolve := resolve w; writable := writable w;
     streams := streams w; frame := frame w; log := log w ++ [e] |}.

(** The bytes stored at a path, if it names a file. *)
Definition file_at (w : World) (path : string) : option (list byte) :=
  files w !! resolve w path.

(** A handle that no open stream has. *)
Definition fresh_stream (s : gmap nat string) : FILE :=
  S (max_list (fst <$> map_to_list s)).

(** ** The state monad of the wrapper *)

Definition M (A : Type) : Type := World -> A * World.

#[global] Instance M_ret : MRet M := λ A (a : A) (w : World), (a, w).
#[global] Instance M_bind : MBind M :=
  λ A B (f : A -> M B) (m : M A) (w : World), let (a, w') := m w in f a w'.

(** [T x;] without initialiser: whatever bytes the frame holds. *)
Definition local (n : nat) : M (list byte) :=
  λ w, (map (frame w) (seq 0 n), w).

(** [memset(s, c, n)] on a buffer held as a list. *)
Definition memset (s : list byte) (c : byte) (n : nat) : list byte :=
  repeat c n ++ drop n s.

(** Bytes sent to a stream are appended to the file it was opened on;
    [streams] keeps that file under its resolved name. *)
Definition fput (stream : option FILE) (out : list byte) (w : World) : World :=
  match stream with
  | Some h =>
      match streams w !! h with
      | Some p => set_files (<[p := default [] (files w !! p) ++ out]> (files w)) w
      | None => w
      end
  | None => w
  end.

Section Wrapper.

Variable L : LibreDWG.

Definition dwg_read_file (filename : string) (dwg : Dwg_Data) : M (int * Dwg_Data) :=
  λ w, let r := read_file L filename (file_at w filename) dwg in
       (r, record (Ev_dwg_read_file filename dwg r.1 r.2) w).

(** [fopen(path, "wb")]: NULL when the path cannot be opened for writing;
    otherwise the file the path names is created or truncated to length
    zero. *)
Definition fopen_wb (path : string) : M (option FILE) :=
  λ w, if writable w path then
         let h := fresh_stream (streams w) in
         (Some h, record (Ev_fopen path (Some h))
                    (set_streams (<[h := resolve w path]> (streams w))
                       (set_files (<[resolve w path := []]> (files w)) w)))
       else (None, record (Ev_fopen path None) w).

Definition dwg_write_dxf (dat : Bit_Chain) (dwg : Dwg_Data) : M (int * Dwg_Data) :=
  λ w, let '(ret, out, dwg') := write_dxf L (version dat) (from_version dat) dwg in
       ((ret, dwg'), record (Ev_dwg_write_dxf dat dwg ret) (fput (fh dat) out w)).

Definition fclose (stream : FILE) : M unit :=
  λ w, (tt, record (Ev_fclose stream) (set_streams (delete stream (streams w)) w)).

Definition dwg_free (dwg : Dwg_Data) : M unit :=
  λ w, (tt, record (Ev_dwg_free dwg) w).

(** ** [convert], wrapper.c lines 30-57 *)
Definition convert (input_path output_path : string) : M int :=
  dwg ← local (sizeof_Dwg_Data L);
  let dwg := memset dwg x00 (sizeof_Dwg_Data L) in
  '(error, dwg) ← dwg_read_file input_path dwg;
  if error >? DWG_ERR_CRITICAL L then
    dwg_free dwg;;
    mret error
  else
    let dat := Bit_Chain_zero in
    let dat := set_version (header_version L dwg) dat in
    let dat := set_from_version (header_from_version L dwg) dat in
    f ← fopen_wb output_path;
    let dat := set_fh f dat in
    match fh dat with
    | None =>
        dwg_free dwg;;
        mret 1
    | Some stream =>
        '(error, dwg) ← dwg_write_dxf dat dwg;
        fclose stream;;
        dwg_free dwg;;
        mret error
    end.

(** The external calls made by one call of [convert], oldest first. *)
Definition calls (input_path output_path : string) (w : World) : list event :=
  drop (length (log w)) (log (convert input_path output_path w).2).

(** ** The three ways out of [convert] *)

(** The drawing object after the [memset]. *)
Definition zeroed : Dwg_Data := repeat x00 (sizeof_Dwg_Data L).

(** The sink as it stands after lines 42-45. *)
Definition sink (dwg : Dwg_Data) (f : option FILE) : Bit_Chain :=
  {| version := header_version L dwg;
     from_version := header_from_version L dwg;
     fh := f |}.

(** [exit i o w r F evs]: started in [w], the call returns [r], leaves the
    files [F] and has made the calls [evs].  One constructor per [return]
    statement of the source. *)
Inductive exit (i o : string) (w : World) :
  int -> gmap string (list byte) -> list event -> Prop :=
| exit_read_critical e d1 :
    read_file L i (file_at w i) zeroed = (e, d1) ->
    DWG_ERR_CRITICAL L < e ->
    exit i o w e (files w)
      [Ev_dwg_read_file i zeroed e d1; Ev_dwg_free d1]
| exit_open_failed e d1 :
    read_file L i (file_at w i) zeroed = (e, d1) ->
    e <= DWG_ERR_CRITICAL L ->
    writable w o = false ->
    exit i o w 1 (files w)
      [Ev_dwg_read_file i zeroed e d1; Ev_fopen o None; Ev_dwg_free d1]
| exit_written e d1 e' out d2 :
    read_file L i (file_at w i) zeroed = (e, d1) ->
    e <= DWG_ERR_CRITICAL L ->
    writable w o = true ->
    write_dxf L (header_version L d1) (header_from_version L d1) d1
      = (e', out, d2) ->
    exit i o w e' (<[resolve w o := out]> (files w))
      [Ev_dwg_read_file i zeroed e d1;
       Ev_fopen o (Some (fresh_stream (streams w)));
       Ev_dwg_write_dxf (sink d1 (Some (fresh_stream (streams w)))) d1 e';
       Ev_fclose (fresh_stream (streams w));
       Ev_dwg_free d2].

End Wrapper.

(** The world a call leaves behind: new files, a longer log, and nothing
    else changed. *)
Definition after (F : gmap string (list byte)) (evs : list event) (w : World) : World :=
  {| files := F; resolve := resolve w; writable := writable w;
     streams := streams w; frame := frame w; log := log w ++ evs |}.

(** ** Reading a log *)

Definition is_free (e : event) : bool :=
  match e with Ev_dwg_free _ => true | _ => false end.

Definition is_read (e : event) : bool :=
  match e with Ev_dwg_read_file _ _ _ _ => true | _ => false end.

Definition is_fopen (e : event) : bool :=
  match e with Ev_fopen _ _ => true | _ => false end.

Definition is_write (e : event) : bool :=
  match e with Ev_dwg_write_dxf _ _ _ => true | _ => false end.

(** An open that returned a stream. *)
Definition is_opened (e : event) : bool :=
  match e with Ev_fopen _ (Some _) => true | _ => false end.

(** The drawing object as the library calls of a log leave it: the reader
    and the writer work on it in place, the other calls do not touch it.
    [None] until the reader has been called. *)
Fixpoint drawing_after (L : LibreDWG) (evs : list event) (dwg : option Dwg_Data)
  : option Dwg_Data :=
  match evs with
  | [] => dwg
  | Ev_dwg_read_file _ _ _ dwg' :: evs' => drawing_after L evs' (Some dwg')
  | Ev_dwg_write_dxf dat d _ :: evs' =>
      drawing_after L evs'
        (Some (write_dxf L (version dat) (from_version dat) d).2)
  | _ :: evs' => drawing_after L evs' dwg
  end.

(** The call [e] names no path other than [i], to read, and [o], to open. *)
Definition on_paths (i o : string) (e : event) : Prop :=
  match e with
  | Ev_dwg_read_file f _ _ _ => f = i
  | Ev_fopen p _ => p = o
  | _ => True
  end.

(** If the call [e] is the writer, its sink holds a stream that an open of
    [o] in [evs] returned. *)
Definition on_open_stream (o : string) (evs : list event) (e : event) : Prop :=
  match e with
  | Ev_dwg_write_dxf dat _ _ =>
      exists h, fh dat = Some h /\ In (Ev_fopen o (Some h)) evs
  | _ => True
  end.

(** How many times a drawing object is released. *)
Definition releases (evs : list event) : nat := length (filter is_free evs).

(** The streams still open at the end of a log, given those open at its
    start (most recently opened first). *)
Fixpoint open_after (evs : list event) (open : list FILE) : list FILE :=
  match evs with
  | [] => open
  | Ev_fopen _ (Some h) :: evs' => open_after evs' (h :: open)
  | Ev_fclose h :: evs' => open_after evs' (filter (λ h', negb (h' =? h)%nat) open)
  | _ :: evs' => open_after evs' open
  end.

(** The code [r] was produced by the library's reader or writer. *)
Definition library_code (r : int) (evs : list event) : Prop :=
  (exists f d d', In (Ev_dwg_read_file f d r d') evs) \/
  (exists dat d, In (Ev_dwg_write_dxf dat d r) evs).

(** The library reports its errors as non-negative codes, and its
    threshold is one of them. *)
Definition nonneg_codes (L : LibreDWG) : Prop :=
  0 <= DWG_ERR_CRITICAL L /\
  (forall f c d, 0 <= (read_file L f c d).1) /\
  (forall v fv d, 0 <= (write_dxf L v fv d).1.1).

(** Two successive calls with the same paths return the same value and
    leave the same bytes at the output path. *)
Definition repeatable (L : LibreDWG) (i o : string) (w : World) : Prop :=
  let c1 := convert L i o w in
  let c2 := convert L i o c1.2 in
  c1.1 = c2.1 /\ file_at c2.2 o = file_at c1.2 o.

(** ** A small library instance, for running the model

    A file is [x41 :: v :: f :: rest]: a magic byte, the two version
    bytes, then optionally the code the reader is to report and the code
    the writer is to report.  Anything else is rejected as an invalid
    drawing, a missing file as an I/O error. *)
Module Toy.

Definition code (b : byte) : Z := Z.of_N (Byte.to_N b).

Definition lib : LibreDWG := {|
  DWG_ERR_CRITICAL := 128;
  sizeof_Dwg_Data := 4;
  header_version := λ d, match d with v :: _ => code v | _ => 0 end;
  header_from_version := λ d, match d with _ :: f :: _ => code f | _ => 0 end;
  read_file := λ _ content dwg,
    match content with
    | None => (4096, dwg)
    | Some (Byte.x41 :: v :: f :: rest) =>
        (match rest with r :: _ => code r | [] => 0 end,
         [v; f; match rest with _ :: wr :: _ => wr | _ => x00 end; Byte.x01])
    | Some _ => (2048, dwg)
    end;
  write_dxf := λ v fv dwg,
    (match dwg with _ :: _ :: wr :: _ => code wr | _ => 0 end,
     [Byte.x30; Byte.x0a] ++ firstn 2 dwg,
     dwg)
|}.

(** Path resolution, as far as the examples need it: a leading [/./] is
    the root. *)
Definition canon (p : string) : string :=
  if String.prefix "/./" p then String.substring 2 (String.length p - 2) p
  else p.

Definition world (fs : list (string * list byte)) (ok : string -> bool) : World :=
  {| files := list_to_map fs; resolve := canon; writable := ok; streams := ∅;
     frame := λ _, Byte.xff; log := [] |}.

(** Paths under [/nodir/] cannot be opened: the directory is missing. *)
Definition mounted (p : string) : bool :=
  negb (String.prefix "/nodir/" (canon p)).

(** A valid drawing at [/in.dwg]. *)
Definition w_valid : World :=
  world [("/in.dwg"%string, [Byte.x41; Byte.x07; Byte.x05])] mounted.

(** A drawing the reader accepts with warning code 2. *)
Definition w_warning : World :=
  world [("/in.dwg"%string, [Byte.x41; Byte.x07; Byte.x05; Byte.x02])] mounted.

(** A drawing the reader accepts with a code equal to the threshold. *)
Definition w_threshold : World :=
  world [("/in.dwg"%string, [Byte.x41; Byte.x07; Byte.x05; Byte.x80])] mounted.

(** The valid drawing again, beside an output left by an earlier run and
    a file of no concern to the call. *)
Definition w_stale : World :=
  world [("/in.dwg"%string, [Byte.x41; Byte.x07; Byte.x05]);
         ("/out.dxf"%string, [Byte.x39; Byte.x39; Byte.x39; Byte.x39; Byte.x39]);
         ("/notes.txt"%string, [Byte.x68; Byte.x69])] mounted.

End Toy.


(** * Properties *)

(** ** The model's building blocks *)

Lemma memset_local (f : nat -> byte) (c : byte) (n : nat) :
  memset (map f (seq 0 n)) c n = repeat c n.
Proof.
  unfold memset. rewrite drop_ge.
  - apply app_nil_r.
  - rewrite length_map, length_seq. lia.
Qed.

Lemma fresh_stream_unused (s : gmap nat string) : s !! fresh_stream s = None.
Proof.
  destruct (s !! fresh_stream s) as [p|] eqn:E; [|reflexivity].
  apply elem_of_map_to_list in E.
  apply (list_elem_of_fmap_2 fst), max_list_elem_of_le in E.
  unfold fresh_stream in E. cbn [fst] in E. exfalso. lia.
Qed.

Section Exits.

Variable L : LibreDWG.

(** [convert] always returns, through one of the three exits. *)
Lemma convert_exit (i o : string) (w : World) :
  exists r F evs, exit L i o w r F evs /\ convert L i o w = (r, after F evs w).
Proof.
  unfold convert, mbind, M_bind, mret, M_ret, local.
  rewrite memset_local. fold (zeroed L).
  unfold dwg_read_file.
  destruct (read_file L i (file_at w i) (zeroed L)) as [e d1] eqn:R.
  cbn [fst snd].
  destruct (Z.gtb_spec e (DWG_ERR_CRITICAL L)) as [Hgt|Hle].
  - exists e, (files w), [Ev_dwg_read_file i (zeroed L) e d1; Ev_dwg_free d1].
    split; [by apply exit_read_critical|].
    unfold dwg_free, record, after; cbn. by rewrite <- app_assoc.
  - unfold fopen_wb. cbn [files writable streams resolve record].
    destruct (writable w o) eqn:W.
    + cbn [fh set_fh].
      unfold dwg_write_dxf. cbn [version from_version set_fh set_version set_from_version Bit_Chain_zero fh].
      destruct (write_dxf L (header_version L d1) (header_from_version L d1) d1)
        as [[e' out] d2] eqn:Wr.
      eexists e', (<[resolve w o := out]> (files w)), _.
      split; [by eapply exit_written|].
      unfold fclose, dwg_free, fput, record, set_streams, set_files, after; cbn.
      rewrite !lookup_insert_eq. cbn.
      rewrite insert_insert_eq, delete_insert_eq, delete_id by apply fresh_stream_unused.
      by rewrite <- !app_assoc.
    + eexists 1, (files w), _.
      split; [by eapply exit_open_failed|].
      unfold dwg_free, record, after; cbn. by rewrite <- !app_assoc.
Qed.

(** The same, read off the call itself. *)
Lemma convert_run (i o : string) (w : World) :
  exists F,
    exit L i o w (convert L i o w).1 F (calls L i o w) /\
    (convert L i o w).2 = after F (calls L i o w) w.
Proof.
  destruct (convert_exit i o w) as (r & F & evs & Hex & Hc).
  unfold calls. rewrite Hc. cbn [fst snd after log].
  rewrite drop_app_length. by exists F.
Qed.

End Exits.

(** Case analysis on the exit taken by [convert L i o w]. *)
Ltac by_exit L i o w :=
  let F := fresh "F" in
  let Hex := fresh "Hex" in
  let Hw := fresh "Hw" in
  destruct (convert_run L i o w) as (F & Hex & Hw);
  rewrite ?Hw;
  destruct Hex as [rc dr Rd Gt | rc dr Rd Le No | rc dr wc out dw Rd Le Ok Wr].

(** Membership of an event in an explicit list of calls. *)
Ltac in_calls H :=
  cbn [In] in H;
  repeat (destruct H as [H|H]);
  try discriminate H; try contradiction H;
  simplify_eq.

Lemma toy_nonneg : nonneg_codes Toy.lib.
Proof.
  assert (Hc : forall b, 0 <= Toy.code b) by (intros b; apply N2Z.is_nonneg).
  repeat split.
  - cbn. lia.
  - intros f c d. cbn.
    destruct c as [[|[] [|v [|x rest]]]|]; cbn; try lia.
    destruct rest; cbn; [lia | apply Hc].
  - intros v fv d. cbn.
    destruct d as [|a [|b [|c d]]]; cbn; try lia. apply Hc.
Qed.

(** ** Running the model *)

Example run_valid :
  let c := convert Toy.lib "/in.dwg" "/out.dxf" Toy.w_valid in
  c.1 = 0 /\
  file_at c.2 "/out.dxf" = Some [Byte.x30; Byte.x0a; Byte.x07; Byte.x05] /\
  calls Toy.lib "/in.dwg" "/out.dxf" Toy.w_valid =
    [Ev_dwg_read_file "/in.dwg" [x00; x00; x00; x00] 0
       [Byte.x07; Byte.x05; x00; Byte.x01];
     Ev_fopen "/out.dxf" (Some 1%nat);
     Ev_dwg_write_dxf {| version := 7; from_version := 5; fh := Some 1%nat |}
       [Byte.x07; Byte.x05; x00; Byte.x01] 0;
     Ev_fclose 1%nat;
     Ev_dwg_free [Byte.x07; Byte.x05; x00; Byte.x01]].
Proof. vm_compute. auto. Qed.

Example run_missing_input :
  let c := convert Toy.lib "/absent.dwg" "/out.dxf" Toy.w_valid in
  c.1 = 4096 /\ file_at c.2 "/out.dxf" = None.
Proof. vm_compute. auto. Qed.

Example run_unwritable_output :
  (convert Toy.lib "/in.dwg" "/nodir/out.dxf" Toy.w_valid).1 = 1.
Proof. reflexivity. Qed.

(** ** Return value *)

(** C1: when the library's codes are non-negative, [convert] returns 0
    exactly when the writer ran and reported 0, and a positive value in
    every other case; and what it returns is either 1, after a failed open
    of the output path, or a code that the reader or the writer produced
    in this call. *)
Theorem convert_return_value (L : LibreDWG) (i o : string) (w : World) :
  nonneg_codes L ->
  let r := (convert L i o w).1 in
  let evs := calls L i o w in
  (r = 0 \/ 0 < r) /\
  (r = 0 <-> exists dat d, In (Ev_dwg_write_dxf dat d 0) evs) /\
  ((r = 1 /\ In (Ev_fopen o None) evs) \/ library_code r evs).
Proof.
  intros (Hcrit & Hrd & Hwr). cbn zeta.
  by_exit L i o w.
  - repeat split.
    + lia.
    + lia.
    + intros (dat & d & [Hin|[Hin|[]]]); discriminate Hin.
    + right. left. exists i, (zeroed L), dr. by left.
  - repeat split.
    + lia.
    + discriminate.
    + intros (dat & d & [Hin|[Hin|[Hin|[]]]]); discriminate Hin.
    + left. split; [reflexivity|]. right. by left.
  - assert (0 <= wc) as Hwc.
    { specialize (Hwr (header_version L dr) (header_from_version L dr) dr).
      by rewrite Wr in Hwr. }
    repeat split.
    + lia.
    + intros ->. eexists _, _. right. right. by left.
    + intros (dat & d & [Hin|[Hin|[Hin|[Hin|[Hin|[]]]]]]); try discriminate Hin.
      by injection Hin.
    + right. right. eexists _, _. right. right. by left.
Qed.

Lemma convert_return_value_witness :
  nonneg_codes Toy.lib /\
  let r := (convert Toy.lib "/in.dwg" "/out.dxf" Toy.w_valid).1 in
  let evs := calls Toy.lib "/in.dwg" "/out.dxf" Toy.w_valid in
  (r = 0 \/ 0 < r) /\
  (r = 0 <-> exists dat d, In (Ev_dwg_write_dxf dat d 0) evs) /\
  ((r = 1 /\ In (Ev_fopen "/out.dxf" None) evs) \/ library_code r evs).
Proof.
  split; [exact toy_nonneg|].
  exact (convert_return_value Toy.lib "/in.dwg" "/out.dxf" Toy.w_valid toy_nonneg).
Defined.

(** ** Critical read failure *)

(** C2: when the reader returns a code above the critical threshold,
    [convert] returns that code; the only calls it makes are the read and
    the release of the drawing object; no path is opened, and the files
    are left as they were. *)
Theorem convert_read_critical (L : LibreDWG) (i o : string) (w : World)
    (d : Dwg_Data) (e : int) (d' : Dwg_Data) :
  In (Ev_dwg_read_file i d e d') (calls L i o w) ->
  DWG_ERR_CRITICAL L < e ->
  (convert L i o w).1 = e /\
  calls L i o w = [Ev_dwg_read_file i d e d'; Ev_dwg_free d'] /\
  (forall p f, ~ In (Ev_fopen p f) (calls L i o w)) /\
  files (convert L i o w).2 = files w.
Proof.
  by_exit L i o w; intros Hin Hgt; in_calls Hin; try lia.
  repeat split; try reflexivity.
  intros p f Hp. in_calls Hp.
Qed.

Lemma convert_read_critical_witness :
  In (Ev_dwg_read_file "/absent.dwg" [x00; x00; x00; x00] 4096 [x00; x00; x00; x00])
     (calls Toy.lib "/absent.dwg" "/out.dxf" Toy.w_valid) /\
  DWG_ERR_CRITICAL Toy.lib < 4096 /\
  (convert Toy.lib "/absent.dwg" "/out.dxf" Toy.w_valid).1 = 4096 /\
  file_at (convert Toy.lib "/absent.dwg" "/out.dxf" Toy.w_valid).2 "/out.dxf" = None.
Proof.
  assert (H1 : In (Ev_dwg_read_file "/absent.dwg" [x00; x00; x00; x00] 4096
                     [x00; x00; x00; x00])
                  (calls Toy.lib "/absent.dwg" "/out.dxf" Toy.w_valid))
    by (vm_compute; auto).
  assert (H2 : DWG_ERR_CRITICAL Toy.lib < 4096) by (cbn; lia).
  destruct (convert_read_critical Toy.lib "/absent.dwg" "/out.dxf" Toy.w_valid
              _ _ _ H1 H2) as (Hr & _ & _ & Hf).
  split; [exact H1|]. split; [exact H2|]. split; [exact Hr|].
  unfold file_at. rewrite Hf. reflexivity.
Defined.

(** ** Failure to open the output *)

(** C3: when the open of the output path fails, [convert] returns 1; its
    calls are the read, the failed open and the release of the drawing
    object, and the writer is not among them. *)
Theorem convert_open_failure (L : LibreDWG) (i o : string) (w : World) (p : string) :
  In (Ev_fopen p None) (calls L i o w) ->
  (convert L i o w).1 = 1 /\
  p = o /\
  (exists d e d',
     calls L i o w = [Ev_dwg_read_file i d e d'; Ev_fopen o None; Ev_dwg_free d']) /\
  (forall dat d r, ~ In (Ev_dwg_write_dxf dat d r) (calls L i o w)).
Proof.
  by_exit L i o w; intros Hin; in_calls Hin.
  repeat split.
  - by eexists _, _, _.
  - intros dat d r Hwr. in_calls Hwr.
Qed.

Lemma convert_open_failure_witness :
  In (Ev_fopen "/nodir/out.dxf" None)
     (calls Toy.lib "/in.dwg" "/nodir/out.dxf" Toy.w_valid) /\
  (convert Toy.lib "/in.dwg" "/nodir/out.dxf" Toy.w_valid).1 = 1.
Proof.
  assert (H1 : In (Ev_fopen "/nodir/out.dxf" None)
                  (calls Toy.lib "/in.dwg" "/nodir/out.dxf" Toy.w_valid))
    by (vm_compute; auto).
  split; [exact H1|].
  exact (proj1 (convert_open_failure Toy.lib "/in.dwg" "/nodir/out.dxf"
                  Toy.w_valid _ H1)).
Defined.

(** ** Cleanup *)

(** C4: whatever exit [convert] takes, there is exactly one release in
    its calls; it is the last call, and what it releases is the drawing
    object as the reader, and the writer if it was called, left it; every
    stream the call opened is closed again, and the table of open streams
    is as it was before the call. *)
Theorem convert_cleanup (L : LibreDWG) (i o : string) (w : World) :
  releases (calls L i o w) = 1%nat /\
  (exists evs d,
     calls L i o w = evs ++ [Ev_dwg_free d] /\
     drawing_after L evs None = Some d) /\
  open_after (calls L i o w) [] = [] /\
  streams (convert L i o w).2 = streams w.
Proof.
  by_exit L i o w; repeat split.
  - by exists [Ev_dwg_read_file i (zeroed L) rc dr], dr.
  - by exists [Ev_dwg_read_file i (zeroed L) rc dr; Ev_fopen o None], dr.
  - eexists [_; _; _; _], dw. split; [reflexivity|].
    cbn. by rewrite Wr.
  - cbn. by rewrite Nat.eqb_refl.
Qed.

(** ** Non-critical read codes *)

(** C5, as stated, fails: the reader returns 0, which is not above the
    threshold, the open of the output path fails, and the writer is never
    called. *)
Lemma noncritical_read_without_write :
  In (Ev_dwg_read_file "/in.dwg" [x00; x00; x00; x00] 0
        [Byte.x07; Byte.x05; x00; Byte.x01])
     (calls Toy.lib "/in.dwg" "/nodir/out.dxf" Toy.w_valid) /\
  0 <= DWG_ERR_CRITICAL Toy.lib /\
  forall dat d r,
    ~ In (Ev_dwg_write_dxf dat d r)
         (calls Toy.lib "/in.dwg" "/nodir/out.dxf" Toy.w_valid).
Proof.
  split; [vm_compute; auto|]. split; [cbn; lia|].
  intros dat d r Hin. vm_compute in Hin. in_calls Hin.
Qed.

(** C5, amended: when the reader returns a code at or below the critical
    threshold, the next call of [convert] is the open of the output path;
    and when that open succeeds, the call after it is the writer, on the
    sink prepared from the drawing's header and the stream just opened. *)
Theorem convert_noncritical_proceeds (L : LibreDWG) (i o : string) (w : World)
    (d : Dwg_Data) (e : int) (d' : Dwg_Data) :
  In (Ev_dwg_read_file i d e d') (calls L i o w) ->
  e <= DWG_ERR_CRITICAL L ->
  exists f rest,
    calls L i o w = Ev_dwg_read_file i d e d' :: Ev_fopen o f :: rest /\
    (forall h, f = Some h ->
       exists r rest', rest = Ev_dwg_write_dxf (sink L d' (Some h)) d' r :: rest').
Proof.
  by_exit L i o w; intros Hin Hle; in_calls Hin; try lia.
  - eexists None, _. split; [reflexivity|]. intros h Hh. discriminate Hh.
  - eexists (Some _), _. split; [reflexivity|]. intros h Hh. simplify_eq.
    by eexists _, _.
Qed.

Lemma convert_noncritical_proceeds_witness :
  In (Ev_dwg_read_file "/in.dwg" [x00; x00; x00; x00] 128
        [Byte.x07; Byte.x05; x00; Byte.x01])
     (calls Toy.lib "/in.dwg" "/out.dxf" Toy.w_threshold) /\
  128 <= DWG_ERR_CRITICAL Toy.lib /\
  exists f rest,
    calls Toy.lib "/in.dwg" "/out.dxf" Toy.w_threshold
      = Ev_dwg_read_file "/in.dwg" [x00; x00; x00; x00] 128
          [Byte.x07; Byte.x05; x00; Byte.x01] :: Ev_fopen "/out.dxf" f :: rest /\
    (forall h, f = Some h ->
       exists r rest',
         rest = Ev_dwg_write_dxf
                  (sink Toy.lib [Byte.x07; Byte.x05; x00; Byte.x01] (Some h))
                  [Byte.x07; Byte.x05; x00; Byte.x01] r :: rest').
Proof.
  assert (H1 : In (Ev_dwg_read_file "/in.dwg" [x00; x00; x00; x00] 128
                     [Byte.x07; Byte.x05; x00; Byte.x01])
                  (calls Toy.lib "/in.dwg" "/out.dxf" Toy.w_threshold))
    by (vm_compute; auto).
  assert (H2 : 128 <= DWG_ERR_CRITICAL Toy.lib) by (cbn; lia).
  split; [exact H1|]. split; [exact H2|].
  exact (convert_noncritical_proceeds Toy.lib "/in.dwg" "/out.dxf"
           Toy.w_threshold _ _ _ H1 H2).
Defined.

(** ** The write stage *)

(** C6: when the writer is called, the calls that follow it are the close
    of the stream held by the sink, which is the stream the open returned,
    and then the release of the drawing object as the writer left it; and
    [convert] returns the writer's code: the code of the writer on that
    sink and that drawing, whatever the reader reported. *)
Theorem convert_write_stage (L : LibreDWG) (i o : string) (w : World)
    (dat : Bit_Chain) (d : Dwg_Data) (r : int) :
  In (Ev_dwg_write_dxf dat d r) (calls L i o w) ->
  (convert L i o w).1 = r /\
  r = (write_dxf L (version dat) (from_version dat) d).1.1 /\
  exists d0 e h,
    fh dat = Some h /\
    calls L i o w =
      [Ev_dwg_read_file i d0 e d; Ev_fopen o (Some h);
       Ev_dwg_write_dxf dat d r; Ev_fclose h;
       Ev_dwg_free (write_dxf L (version dat) (from_version dat) d).2].
Proof.
  by_exit L i o w; intros Hin; in_calls Hin.
  repeat split.
  - cbn. by rewrite Wr.
  - eexists _, _, _. split; [reflexivity|]. cbn. by rewrite Wr.
Qed.

Lemma convert_write_stage_witness :
  In (Ev_dwg_write_dxf {| version := 7; from_version := 5; fh := Some 1%nat |}
        [Byte.x07; Byte.x05; x00; Byte.x01] 0)
     (calls Toy.lib "/in.dwg" "/out.dxf" Toy.w_warning) /\
  (convert Toy.lib "/in.dwg" "/out.dxf" Toy.w_warning).1 = 0.
Proof.
  assert (H1 : In (Ev_dwg_write_dxf
                     {| version := 7; from_version := 5; fh := Some 1%nat |}
                     [Byte.x07; Byte.x05; x00; Byte.x01] 0)
                  (calls Toy.lib "/in.dwg" "/out.dxf" Toy.w_warning))
    by (vm_compute; auto).
  split; [exact H1|].
  exact (proj1 (convert_write_stage Toy.lib "/in.dwg" "/out.dxf"
                  Toy.w_warning _ _ _ H1)).
Defined.

(** ** The sink *)

(** C7: in a call that gets past the read, whenever the writer is called
    the drawing it receives is the one the reader left, and the version
    and source-version fields of the sink it receives are those of that
    drawing's header. *)
Theorem convert_sink_versions (L : LibreDWG) (i o : string) (w : World)
    (d : Dwg_Data) (e : int) (d' : Dwg_Data) :
  In (Ev_dwg_read_file i d e d') (calls L i o w) ->
  e <= DWG_ERR_CRITICAL L ->
  forall dat dx r,
    In (Ev_dwg_write_dxf dat dx r) (calls L i o w) ->
    dx = d' /\
    version dat = header_version L d' /\
    from_version dat = header_from_version L d'.
Proof.
  by_exit L i o w; intros Hin Hle dat dx r Hwr; in_calls Hin; in_calls Hwr.
  by repeat split.
Qed.

Lemma convert_sink_versions_witness :
  In (Ev_dwg_read_file "/in.dwg" [x00; x00; x00; x00] 0
        [Byte.x07; Byte.x05; x00; Byte.x01])
     (calls Toy.lib "/in.dwg" "/out.dxf" Toy.w_valid) /\
  0 <= DWG_ERR_CRITICAL Toy.lib /\
  In (Ev_dwg_write_dxf {| version := 7; from_version := 5; fh := Some 1%nat |}
        [Byte.x07; Byte.x05; x00; Byte.x01] 0)
     (calls Toy.lib "/in.dwg" "/out.dxf" Toy.w_valid) /\
  7 = header_version Toy.lib [Byte.x07; Byte.x05; x00; Byte.x01] /\
  5 = header_from_version Toy.lib [Byte.x07; Byte.x05; x00; Byte.x01].
Proof.
  assert (H1 : In (Ev_dwg_read_file "/in.dwg" [x00; x00; x00; x00] 0
                     [Byte.x07; Byte.x05; x00; Byte.x01])
                  (calls Toy.lib "/in.dwg" "/out.dxf" Toy.w_valid))
    by (vm_compute; auto).
  assert (H2 : 0 <= DWG_ERR_CRITICAL Toy.lib) by (cbn; lia).
  assert (H3 : In (Ev_dwg_write_dxf
                     {| version := 7; from_version := 5; fh := Some 1%nat |}
                     [Byte.x07; Byte.x05; x00; Byte.x01] 0)
                  (calls Toy.lib "/in.dwg" "/out.dxf" Toy.w_valid))
    by (vm_compute; auto).
  split; [exact H1|]. split; [exact H2|]. split; [exact H3|].
  exact (proj2 (convert_sink_versions Toy.lib "/in.dwg" "/out.dxf" Toy.w_valid
                  _ _ _ H1 H2 _ _ _ H3)).
Defined.

(** ** Initialisation *)

(** C8: the first call of [convert] is the read, and the drawing object it
    hands to the reader has the size of [Dwg_Data] and all its bytes zero,
    whatever the frame held. *)
Theorem convert_zeroes_drawing (L : LibreDWG) (i o : string) (w : World) :
  exists d e d' rest,
    calls L i o w = Ev_dwg_read_file i d e d' :: rest /\
    length d = sizeof_Dwg_Data L /\
    Forall (fun b => b = x00) d.
Proof.
  assert (Hz : length (zeroed L) = sizeof_Dwg_Data L /\
               Forall (fun b => b = x00) (zeroed L)).
  { unfold zeroed. split; [apply repeat_length|].
    induction (sizeof_Dwg_Data L) as [|n IH]; cbn; by constructor. }
  by_exit L i o w; eexists (zeroed L), _, _, _; (split; [reflexivity|exact Hz]).
Qed.

(** ** Calling twice *)

(** A second call, started from the files the first one left, takes the
    same exit, provided the first did not write over its own input. *)
Lemma exit_again (L : LibreDWG) (i o : string) (w w1 : World)
    (r r1 : int) (F F1 : gmap string (list byte)) (evs evs1 : list event) :
  resolve w i <> resolve w o ->
  exit L i o w r F evs ->
  files w1 = F ->
  resolve w1 = resolve w ->
  writable w1 = writable w ->
  exit L i o w1 r1 F1 evs1 ->
  r1 = r /\ F1 !! resolve w o = F !! resolve w o.
Proof.
  intros Hne H H0 Hres Hwr H1.
  assert (Hi : file_at w1 i = file_at w i).
  { unfold file_at. rewrite Hres, H0.
    destruct H; try reflexivity. by apply lookup_insert_ne. }
  destruct H as [rc dr Rd Gt | rc dr Rd Le No | rc dr wc out dw Rd Le Ok Wr];
    destruct H1 as [rc1 dr1 Rd1 Gt1 | rc1 dr1 Rd1 Le1 No1
                   | rc1 dr1 wc1 out1 dw1 Rd1 Le1 Ok1 Wr1];
    rewrite Hi, Rd in Rd1; rewrite ?Hwr, ?Hres in *; simplify_eq; try lia;
    try (split; congruence).
  rewrite Wr in Wr1. simplify_eq.
  split; [reflexivity|]. by rewrite !lookup_insert_eq.
Qed.

(** C9, as stated, fails when the two paths are the same: the first call
    reads the drawing, writes the DXF text over it and returns 0; the
    second finds no drawing there and returns the reader's code. *)
Lemma repeat_on_same_path_differs :
  ~ repeatable Toy.lib "/in.dwg" "/in.dwg" Toy.w_valid.
Proof.
  unfold repeatable. vm_compute. intros [H _]. discriminate H.
Qed.

(** It fails in the same way when the two paths are spelt differently and
    name one file. *)
Example repeat_on_alias_differs :
  "/in.dwg"%string <> "/./in.dwg"%string /\
  (convert Toy.lib "/in.dwg" "/./in.dwg" Toy.w_valid).1 = 0 /\
  (convert Toy.lib "/in.dwg" "/./in.dwg"
     (convert Toy.lib "/in.dwg" "/./in.dwg" Toy.w_valid).2).1 = 2048.
Proof. split; [discriminate|]. split; reflexivity. Qed.

(** C9, amended: when the input path and the output path do not name the
    same file, two successive calls with the same paths return the same
    value and leave the same bytes at the output path; and after a call
    that reached the writer, the output file holds exactly the bytes the
    writer sent in that call, nothing of what was there before. *)
Theorem convert_repeatable (L : LibreDWG) (i o : string) (w : World) :
  resolve w i <> resolve w o ->
  repeatable L i o w /\
  (forall dat d r,
     In (Ev_dwg_write_dxf dat d r) (calls L i o w) ->
     file_at (convert L i o w).2 o
       = Some (write_dxf L (version dat) (from_version dat) d).1.2).
Proof.
  intros Hne. split.
  - unfold repeatable. cbn zeta.
    destruct (convert_run L i o w) as (F & Hex & Hw).
    destruct (convert_run L i o (convert L i o w).2) as (F1 & Hex1 & Hw1).
    rewrite Hw1. unfold file_at. cbn [files resolve after].
    destruct (exit_again L i o w _ _ _ _ _ _ _ Hne Hex
                (eq_refl : files (after F _ w) = F)
                (eq_refl : resolve (after F _ w) = resolve w)
                (eq_refl : writable (after F _ w) = writable w)
                ltac:(rewrite <- Hw; exact Hex1)) as [Hr HF].
    split; [by symmetry|]. rewrite Hw. cbn [files resolve after]. exact HF.
  - by_exit L i o w; intros dat d r Hin; in_calls Hin.
    unfold file_at. cbn. rewrite Wr. cbn. apply lookup_insert_eq.
Qed.

Lemma convert_repeatable_witness :
  resolve Toy.w_stale "/./in.dwg" <> resolve Toy.w_stale "/out.dxf" /\
  repeatable Toy.lib "/./in.dwg" "/out.dxf" Toy.w_stale.
Proof.
  assert (H1 : resolve Toy.w_stale "/./in.dwg" <> resolve Toy.w_stale "/out.dxf")
    by discriminate.
  split; [exact H1|].
  exact (proj1 (convert_repeatable Toy.lib "/./in.dwg" "/out.dxf" Toy.w_stale H1)).
Defined.

(** ** Read warnings *)

(** C10: when the reader returns a code at or below the threshold,
    [convert] returns either 1, after a failed open, or the code of the
    writer; and there is a call in which the reader reports a non-zero
    warning and [convert] returns 0. *)
Theorem convert_hides_read_warning :
  (forall (L : LibreDWG) (i o : string) (w : World)
          (d : Dwg_Data) (e : int) (d' : Dwg_Data),
     In (Ev_dwg_read_file i d e d') (calls L i o w) ->
     e <= DWG_ERR_CRITICAL L ->
     ((convert L i o w).1 = 1 /\ In (Ev_fopen o None) (calls L i o w)) \/
     (exists dat dx,
        In (Ev_dwg_write_dxf dat dx (convert L i o w).1) (calls L i o w))) /\
  (exists (L : LibreDWG) (i o : string) (w : World)
          (d : Dwg_Data) (e : int) (d' : Dwg_Data),
     In (Ev_dwg_read_file i d e d') (calls L i o w) /\
     e <> 0 /\ e <= DWG_ERR_CRITICAL L /\
     (convert L i o w).1 = 0).
Proof.
  split.
  - intros L i o w. by_exit L i o w; intros d e d' Hin Hle; in_calls Hin;
      try lia.
    + left. split; [reflexivity|]. right. by left.
    + right. eexists _, _. right. right. by left.
  - exists Toy.lib, "/in.dwg"%string, "/out.dxf"%string, Toy.w_warning,
      [x00; x00; x00; x00], 2, [Byte.x07; Byte.x05; x00; Byte.x01].
    split; [vm_compute; auto|]. split; [discriminate|].
    split; [cbn; lia|]. reflexivity.
Qed.

Lemma convert_hides_read_warning_witness :
  In (Ev_dwg_read_file "/in.dwg" [x00; x00; x00; x00] 2
        [Byte.x07; Byte.x05; x00; Byte.x01])
     (calls Toy.lib "/in.dwg" "/nodir/out.dxf" Toy.w_warning) /\
  2 <= DWG_ERR_CRITICAL Toy.lib /\
  (((convert Toy.lib "/in.dwg" "/nodir/out.dxf" Toy.w_warning).1 = 1 /\
    In (Ev_fopen "/nodir/out.dxf" None)
       (calls Toy.lib "/in.dwg" "/nodir/out.dxf" Toy.w_warning)) \/
   (exists dat dx,
      In (Ev_dwg_write_dxf dat dx
            (convert Toy.lib "/in.dwg" "/nodir/out.dxf" Toy.w_warning).1)
         (calls Toy.lib "/in.dwg" "/nodir/out.dxf" Toy.w_warning))).
Proof.
  assert (H1 : In (Ev_dwg_read_file "/in.dwg" [x00; x00; x00; x00] 2
                     [Byte.x07; Byte.x05; x00; Byte.x01])
                  (calls Toy.lib "/in.dwg" "/nodir/out.dxf" Toy.w_warning))
    by (vm_compute; auto).
  assert (H2 : 2 <= DWG_ERR_CRITICAL Toy.lib) by (cbn; lia).
  split; [exact H1|]. split; [exact H2|].
  exact (proj1 convert_hides_read_warning Toy.lib "/in.dwg" "/nodir/out.dxf"
           Toy.w_warning _ _ _ H1 H2).
Defined.

(** * Further properties of [convert] *)

(** ** What the call does to the files *)

(** Two calls on the same paths, in worlds that agree on the input file
    and on whether the output can be opened, take the same exit: either
    neither calls the writer and both leave the files alone, or both put
    the same bytes at the output path. *)
Lemma exit_agree (L : LibreDWG) (i o : string) (w w' : World)
    (r r' : int) (F F' : gmap string (list byte)) (evs evs' : list event) :
  file_at w i = file_at w' i ->
  writable w o = writable w' o ->
  exit L i o w r F evs ->
  exit L i o w' r' F' evs' ->
  r = r' /\
  ((F = files w /\ F' = files w') \/
   (exists out, F = <[resolve w o := out]> (files w) /\
                F' = <[resolve w' o := out]> (files w'))).
Proof.
  intros Hi Hwr H H'.
  destruct H as [rc dr Rd Gt | rc dr Rd Le No | rc dr wc out dw Rd Le Ok Wr];
    destruct H' as [rc1 dr1 Rd1 Gt1 | rc1 dr1 Rd1 Le1 No1
                   | rc1 dr1 wc1 out1 dw1 Rd1 Le1 Ok1 Wr1];
    rewrite <- Hi, Rd in Rd1; rewrite <- ?Hwr in *; simplify_eq; try lia;
    try congruence; try (split; [reflexivity|left; by split]).
  rewrite Wr in Wr1. simplify_eq.
  split; [reflexivity|]. right. by exists out1.
Qed.

(** X1: a path that does not name the same file as the output path holds
    after the call what it held before it; if it named no file, it still
    names none. *)
Theorem convert_other_files (L : LibreDWG) (i o : string) (w : World) (p : string) :
  resolve w p <> resolve w o ->
  file_at (convert L i o w).2 p = file_at w p.
Proof.
  by_exit L i o w; intros Hp; unfold file_at; cbn [files resolve after];
    try reflexivity.
  by apply lookup_insert_ne.
Qed.

Lemma convert_other_files_witness :
  resolve Toy.w_stale "/./notes.txt" <> resolve Toy.w_stale "/out.dxf" /\
  file_at (convert Toy.lib "/in.dwg" "/out.dxf" Toy.w_stale).2 "/./notes.txt"
    = Some [Byte.x68; Byte.x69].
Proof.
  assert (H1 : resolve Toy.w_stale "/./notes.txt" <> resolve Toy.w_stale "/out.dxf")
    by discriminate.
  split; [exact H1|].
  rewrite (convert_other_files Toy.lib "/in.dwg" "/out.dxf" Toy.w_stale
             "/./notes.txt" H1).
  reflexivity.
Defined.

(** X2: a call in which the writer is not called leaves every file as it
    was: after a failed open the output file is neither created nor
    emptied. *)
Theorem convert_no_write_no_change (L : LibreDWG) (i o : string) (w : World) :
  (forall dat d r, ~ In (Ev_dwg_write_dxf dat d r) (calls L i o w)) ->
  files (convert L i o w).2 = files w.
Proof.
  by_exit L i o w; intros Hno; cbn [files after]; try reflexivity.
  exfalso. eapply Hno. right. right. by left.
Qed.

Lemma convert_no_write_no_change_witness :
  (forall dat d r,
     ~ In (Ev_dwg_write_dxf dat d r)
          (calls Toy.lib "/in.dwg" "/nodir/out.dxf" Toy.w_stale)) /\
  files (convert Toy.lib "/in.dwg" "/nodir/out.dxf" Toy.w_stale).2
    = files Toy.w_stale.
Proof.
  assert (H1 : forall dat d r,
             ~ In (Ev_dwg_write_dxf dat d r)
                  (calls Toy.lib "/in.dwg" "/nodir/out.dxf" Toy.w_stale)).
  { intros dat d r Hin. vm_compute in Hin. in_calls Hin. }
  split; [exact H1|].
  exact (convert_no_write_no_change Toy.lib "/in.dwg" "/nodir/out.dxf"
           Toy.w_stale H1).
Defined.

(** X3: the call removes no file: a file that is there before the call is
    there after it, and so a path that names a file before the call names
    one after it. *)
Theorem convert_keeps_files (L : LibreDWG) (i o : string) (w : World) (p : string) :
  (is_Some (files w !! p) -> is_Some (files (convert L i o w).2 !! p)) /\
  (is_Some (file_at w p) -> is_Some (file_at (convert L i o w).2 p)).
Proof.
  assert (Hk : forall k, is_Some (files w !! k) ->
                         is_Some (files (convert L i o w).2 !! k)).
  { intros k. by_exit L i o w; intros Hp; cbn [files after]; try assumption.
    destruct (decide (resolve w o = k)) as [->|Hne].
    - rewrite lookup_insert_eq. by eexists.
    - by rewrite lookup_insert_ne. }
  split; [apply Hk|].
  intros Hp. unfold file_at in *.
  destruct (convert_run L i o w) as (F & _ & Hw).
  replace (resolve (convert L i o w).2) with (resolve w) by (by rewrite Hw).
  by apply Hk.
Qed.

Lemma convert_keeps_files_witness :
  is_Some (file_at Toy.w_stale "/out.dxf") /\
  is_Some (file_at (convert Toy.lib "/in.dwg" "/out.dxf" Toy.w_stale).2 "/out.dxf").
Proof.
  assert (H1 : is_Some (file_at Toy.w_stale "/out.dxf")) by (by eexists).
  split; [exact H1|].
  exact (proj2 (convert_keeps_files Toy.lib "/in.dwg" "/out.dxf" Toy.w_stale _) H1).
Defined.

(** X4: with a threshold that is not negative, a return value of 0 means
    that the writer was called and reported 0, and that the output path
    now holds the bytes the writer sent. *)
Theorem convert_zero_output (L : LibreDWG) (i o : string) (w : World) :
  0 <= DWG_ERR_CRITICAL L ->
  (convert L i o w).1 = 0 ->
  exists dat d,
    In (Ev_dwg_write_dxf dat d 0) (calls L i o w) /\
    file_at (convert L i o w).2 o
      = Some (write_dxf L (version dat) (from_version dat) d).1.2.
Proof.
  by_exit L i o w; intros Hc Hr; try lia.
  subst wc. eexists _, _. split.
  - right. right. by left.
  - unfold file_at. cbn. rewrite Wr. cbn. apply lookup_insert_eq.
Qed.

Lemma convert_zero_output_witness :
  0 <= DWG_ERR_CRITICAL Toy.lib /\
  (convert Toy.lib "/in.dwg" "/out.dxf" Toy.w_stale).1 = 0 /\
  exists dat d,
    In (Ev_dwg_write_dxf dat d 0) (calls Toy.lib "/in.dwg" "/out.dxf" Toy.w_stale) /\
    file_at (convert Toy.lib "/in.dwg" "/out.dxf" Toy.w_stale).2 "/out.dxf"
      = Some (write_dxf Toy.lib (version dat) (from_version dat) d).1.2.
Proof.
  assert (H1 : 0 <= DWG_ERR_CRITICAL Toy.lib) by (cbn; lia).
  assert (H2 : (convert Toy.lib "/in.dwg" "/out.dxf" Toy.w_stale).1 = 0)
    by reflexivity.
  split; [exact H1|]. split; [exact H2|].
  exact (convert_zero_output Toy.lib "/in.dwg" "/out.dxf" Toy.w_stale H1 H2).
Defined.

(** ** What the call depends on *)

(** X5: the outcome depends on the world only through the input file and
    through whether the output path can be opened.  In two worlds that
    agree on these, [convert] returns the same value, and either leaves
    the files alone in both or leaves the same bytes at the output path in
    both: other files, open streams, earlier calls and the old contents of
    the output path play no part. *)
Theorem convert_depends_on (L : LibreDWG) (i o : string) (w w' : World) :
  file_at w i = file_at w' i ->
  writable w o = writable w' o ->
  (convert L i o w).1 = (convert L i o w').1 /\
  ((files (convert L i o w).2 = files w /\
    files (convert L i o w').2 = files w') \/
   (exists out,
      file_at (convert L i o w).2 o = Some out /\
      file_at (convert L i o w').2 o = Some out)).
Proof.
  intros Hi Hwr.
  destruct (convert_run L i o w) as (F & Hex & Hw).
  destruct (convert_run L i o w') as (F' & Hex' & Hw').
  rewrite Hw, Hw'. unfold file_at. cbn [files resolve after].
  destruct (exit_agree L i o w w' _ _ _ _ _ _ Hi Hwr Hex Hex')
    as [Hr [[-> ->]|(out & -> & ->)]].
  - split; [exact Hr|]. by left.
  - split; [exact Hr|]. right. exists out. by rewrite !lookup_insert_eq.
Qed.

Lemma convert_depends_on_witness :
  file_at Toy.w_valid "/in.dwg" = file_at Toy.w_stale "/in.dwg" /\
  writable Toy.w_valid "/out.dxf" = writable Toy.w_stale "/out.dxf" /\
  (convert Toy.lib "/in.dwg" "/out.dxf" Toy.w_valid).1
    = (convert Toy.lib "/in.dwg" "/out.dxf" Toy.w_stale).1.
Proof.
  assert (H1 : file_at Toy.w_valid "/in.dwg" = file_at Toy.w_stale "/in.dwg")
    by reflexivity.
  assert (H2 : writable Toy.w_valid "/out.dxf" = writable Toy.w_stale "/out.dxf")
    by reflexivity.
  split; [exact H1|]. split; [exact H2|].
  exact (proj1 (convert_depends_on Toy.lib "/in.dwg" "/out.dxf"
                  Toy.w_valid Toy.w_stale H1 H2)).
Defined.

(** X6: the call reads no path but the input path and opens no path but
    the output path; it calls the reader once and opens at most once; it
    calls the writer no more often than an open returned a stream, and
    only on a sink that holds a stream returned by an open of the output
    path in this call. *)
Theorem convert_paths_and_counts (L : LibreDWG) (i o : string) (w : World) :
  Forall (on_paths i o) (calls L i o w) /\
  Forall (on_open_stream o (calls L i o w)) (calls L i o w) /\
  length (filter is_read (calls L i o w)) = 1%nat /\
  (length (filter is_fopen (calls L i o w)) <= 1)%nat /\
  (length (filter is_write (calls L i o w))
     <= length (filter is_opened (calls L i o w)))%nat /\
  (length (filter is_write (calls L i o w))
     <= length (filter is_fopen (calls L i o w)))%nat.
Proof.
  by_exit L i o w;
    (split; [rewrite ?Forall_cons, Forall_nil; by cbn|]);
    (split; [|compute; lia]);
    rewrite ?Forall_cons, Forall_nil; cbn [on_open_stream]; repeat split.
  eexists. split; [reflexivity|]. right. by left.
Qed.

(** X7: a call in which the writer is not called has no effect on a later
    call, whatever its paths: started after it, the later call returns
    what it would have returned before it and leaves the same files. *)
Theorem convert_failed_then_again (L : LibreDWG) (i o : string) (w : World)
    (i2 o2 : string) :
  (forall dat d r, ~ In (Ev_dwg_write_dxf dat d r) (calls L i o w)) ->
  (convert L i2 o2 (convert L i o w).2).1 = (convert L i2 o2 w).1 /\
  files (convert L i2 o2 (convert L i o w).2).2 = files (convert L i2 o2 w).2.
Proof.
  intros Hno.
  assert (Hf : files (convert L i o w).2 = files w /\
               resolve (convert L i o w).2 = resolve w /\
               writable (convert L i o w).2 = writable w).
  { revert Hno.
    by_exit L i o w; intros Hno; cbn [files resolve writable after];
      try (by repeat split).
    exfalso. eapply Hno. right. right. by left. }
  destruct Hf as (Hf & Hres & Hwr).
  destruct (convert_run L i2 o2 (convert L i o w).2) as (F1 & Hex1 & Hw1).
  destruct (convert_run L i2 o2 w) as (F2 & Hex2 & Hw2).
  rewrite Hw1, Hw2. cbn [files after].
  destruct (exit_agree L i2 o2 _ w _ _ _ _ _ _
              ltac:(unfold file_at; by rewrite Hf, Hres)
              ltac:(by rewrite Hwr) Hex1 Hex2)
    as [Hr [[-> ->]|(out & -> & ->)]].
  - by split.
  - split; [exact Hr|]. by rewrite Hf, Hres.
Qed.

Lemma convert_failed_then_again_witness :
  (forall dat d r,
     ~ In (Ev_dwg_write_dxf dat d r)
          (calls Toy.lib "/in.dwg" "/nodir/out.dxf" Toy.w_valid)) /\
  (convert Toy.lib "/in.dwg" "/out.dxf"
     (convert Toy.lib "/in.dwg" "/nodir/out.dxf" Toy.w_valid).2).1 = 0.
Proof.
  assert (H1 : forall dat d r,
             ~ In (Ev_dwg_write_dxf dat d r)
                  (calls Toy.lib "/in.dwg" "/nodir/out.dxf" Toy.w_valid)).
  { intros dat d r Hin. vm_compute in Hin. in_calls Hin. }
  split; [exact H1|].
  rewrite (proj1 (convert_failed_then_again Toy.lib "/in.dwg" "/nodir/out.dxf"
                    Toy.w_valid "/in.dwg" "/out.dxf" H1)).
  reflexivity.
Defined.

(** ** One file as input and output *)

(** X8: when the input path and the output path name the same file (the
    same path twice, or two spellings of it), a call that gets past the
    read and opens the output replaces the drawing stored there by the
    bytes the writer sends: the input does not survive the call. *)
Theorem convert_same_path_overwrites (L : LibreDWG) (i o : string) (w : World)
    (d : Dwg_Data) (e : int) (d' : Dwg_Data) :
  resolve w i = resolve w o ->
  In (Ev_dwg_read_file i d e d') (calls L i o w) ->
  e <= DWG_ERR_CRITICAL L ->
  writable w o = true ->
  file_at (convert L i o w).2 i
    = Some (write_dxf L (header_version L d') (header_from_version L d') d').1.2.
Proof.
  by_exit L i o w; intros Hsame Hin Hle Hok; in_calls Hin; try lia;
    try congruence.
  unfold file_at. cbn. rewrite Wr, Hsame. cbn. apply lookup_insert_eq.
Qed.

Lemma convert_same_path_overwrites_witness :
  resolve Toy.w_valid "/in.dwg" = resolve Toy.w_valid "/./in.dwg" /\
  In (Ev_dwg_read_file "/in.dwg" [x00; x00; x00; x00] 0
        [Byte.x07; Byte.x05; x00; Byte.x01])
     (calls Toy.lib "/in.dwg" "/./in.dwg" Toy.w_valid) /\
  0 <= DWG_ERR_CRITICAL Toy.lib /\
  writable Toy.w_valid "/./in.dwg" = true /\
  file_at (convert Toy.lib "/in.dwg" "/./in.dwg" Toy.w_valid).2 "/in.dwg"
    = Some [Byte.x30; Byte.x0a; Byte.x07; Byte.x05].
Proof.
  assert (H0 : resolve Toy.w_valid "/in.dwg" = resolve Toy.w_valid "/./in.dwg")
    by reflexivity.
  assert (H1 : In (Ev_dwg_read_file "/in.dwg" [x00; x00; x00; x00] 0
                     [Byte.x07; Byte.x05; x00; Byte.x01])
                  (calls Toy.lib "/in.dwg" "/./in.dwg" Toy.w_valid))
    by (vm_compute; auto).
  assert (H2 : 0 <= DWG_ERR_CRITICAL Toy.lib) by (cbn; lia).
  assert (H3 : writable Toy.w_valid "/./in.dwg" = true) by reflexivity.
  split; [exact H0|]. split; [exact H1|]. split; [exact H2|]. split; [exact H3|].
  rewrite (convert_same_path_overwrites Toy.lib "/in.dwg" "/./in.dwg" Toy.w_valid
             _ _ _ H0 H1 H2 H3).
  reflexivity.
Defined.
